(** * The SOLID notification service (notificationService.cpp)

    A shallow embedding of the C++ program: the characters written to
    [std::cout] and the objects alive in memory form the machine state,
    member functions are state-passing computations over it, and virtual
    calls dispatch on the dynamic class of the object an address holds. *)

From stdpp Require Import gmap strings.
From Stdlib Require Import ZArith Ascii.

(* stdpp keeps [simpl] from unfolding string concatenation; the proofs
   below compute with literals, so it is allowed again here. *)
#[local] Arguments String.append !_ _ / : simpl nomatch.

(** ** Text: [std::string] values and the lines of a character stream *)

Module Text.

(** The line-feed character, which [std::endl] writes. *)
Definition LF : ascii := "010"%char.

Definition endl : string := String LF "".

(** A text holds no line feed. *)
Fixpoint single_line (s : string) : bool :=
  match s with
  | EmptyString => true
  | String ch rest => negb (Ascii.eqb ch LF) && single_line rest
  end.

(** The lines of a character stream: each line feed ends a line, and
    characters after the last line feed form a last, unfinished line. *)
Fixpoint lines (s : string) : list string :=
  match s with
  | EmptyString => []
  | String ch rest =>
      if Ascii.eqb ch LF then EmptyString :: lines rest
      else match lines rest with
           | [] => [String ch EmptyString]
           | l :: ls => String ch l :: ls
           end
  end.

(** The stream without its first [n] characters. *)
Fixpoint skip (n : nat) (s : string) : string :=
  match n, s with
  | S n', String _ rest => skip n' rest
  | _, _ => s
  end.

End Text.

Import Text.

(** ** Machine state *)

(** Objects live at addresses; a [std::unique_ptr] holds the address of the
    object it owns, or nothing ([nullptr]). *)
Definition addr : Type := nat.
Definition unique_ptr : Type := option addr.
Definition nullptr : unique_ptr := None.

(** The dynamic class of an object together with its data members.
    [EmailNotifier], [SMSNotifier] and [ConsoleLogger] declare none; a
    [NotificationService] has the two owning pointers [notifier] and
    [logger] (its third member, the [MessageFormatter], has no data). *)
Inductive object : Type :=
  | EmailNotifier
  | SMSNotifier
  | ConsoleLogger
  | NotificationService (notifier logger : unique_ptr).

(** [cout] is every character written to [std::cout] so far. *)
Record world : Type := World {
  cout : string;
  objects : gmap addr object
}.

(** The state a process starts in. *)
Definition initial : world := World "" ∅.

(** ** Computations

    A computation runs from a state to a result and a new state, or has
    no defined behaviour (a null or dangling pointer is dereferenced). *)
Definition IO (A : Type) : Type := world -> option (A * world).

Definition ret {A : Type} (a : A) : IO A := fun w => Some (a, w).

Definition bind {A B : Type} (m : IO A) (k : A -> IO B) : IO B :=
  fun w => match m w with
           | Some (a, w') => k a w'
           | None => None
           end.

Definition undefined {A : Type} : IO A := fun _ => None.

Declare Scope io_scope.
Delimit Scope io_scope with io.
Bind Scope io_scope with IO.
Notation "x <- m ;; k" := (bind m (fun x => k))
  (at level 20, m at level 99, k at level 200, format "x  <-  m  ;;  '/' k") : io_scope.
Notation "m ;; k" := (bind m (fun _ => k))
  (at level 100, k at level 200, right associativity, format "m  ;;  '/' k") : io_scope.
Local Open Scope io_scope.

(** [std::cout << s] *)
Definition cout_put (s : string) : IO unit :=
  fun w => Some (tt, World (cout w +:+ s) (objects w)).

(** [std::cout << std::endl]: a line feed (the flush changes no character). *)
Definition cout_endl : IO unit := cout_put endl.

(** A new object at an address not in use. *)
Definition allocate (o : object) : IO addr :=
  fun w => let a := fresh (dom (objects w)) in
           Some (a, World (cout w) (<[a:=o]> (objects w))).

(** [delete] of the object at [a]: its storage is released. Undefined when
    no object lives at [a] (a dangling pointer, a second delete). *)
Definition release (a : addr) : IO unit :=
  fun w => match objects w !! a with
           | Some _ => Some (tt, World (cout w) (delete a (objects w)))
           | None => None
           end.

(** The object at address [a]. *)
Definition load (a : addr) : IO object :=
  fun w => match objects w !! a with
           | Some o => Some (o, w)
           | None => None
           end.

(** [std::make_unique<T>()] *)
Definition make_unique (o : object) : IO unique_ptr :=
  a <- allocate o ;; ret (Some a).

(** [p->]: the address [p] holds; undefined on [nullptr]. *)
Definition arrow (p : unique_ptr) : IO addr :=
  match p with
  | Some a => ret a
  | None => undefined
  end.

(** [~unique_ptr()]: the owned object, if any, is deleted; a null pointer
    owns nothing. *)
Definition unique_ptr_delete (p : unique_ptr) : IO unit :=
  match p with
  | Some a => release a
  | None => ret tt
  end.

(** ** The classes *)

(** [MessageFormatter::formatMessage]; [+] on [std::string] associates to
    the left. *)
Definition formatMessage (recipient content : string) : IO string :=
  ret ((("Dear " +:+ recipient) +:+ ", ") +:+ content).

(** [EmailNotifier::send] *)
Definition EmailNotifier_send (message : string) : IO unit :=
  cout_put "Sending Email: " ;; cout_put message ;; cout_endl.

(** [SMSNotifier::send] *)
Definition SMSNotifier_send (message : string) : IO unit :=
  cout_put "Sending SMS: " ;; cout_put message ;; cout_endl.

(** The virtual call [notifier.send(message)] on the object at [this]. *)
Definition send (this : addr) (message : string) : IO unit :=
  o <- load this ;;
  match o with
  | EmailNotifier => EmailNotifier_send message
  | SMSNotifier => SMSNotifier_send message
  | _ => undefined
  end.

(** [notifyUser(INotifier &notifier, message)] *)
Definition notifyUser (notifier : addr) (message : string) : IO unit :=
  send notifier message.

(** [ConsoleLogger::log] *)
Definition ConsoleLogger_log (info : string) : IO unit :=
  cout_put "Logging: " ;; cout_put info ;; cout_endl.

(** The virtual call [logger.log(info)] on the object at [this]. *)
Definition log (this : addr) (info : string) : IO unit :=
  o <- load this ;;
  match o with
  | ConsoleLogger => ConsoleLogger_log info
  | _ => undefined
  end.

(** The constructor: the two pointers are moved into the new object. It
    checks neither of them. *)
Definition NotificationService_new (notifier logger : unique_ptr) : IO addr :=
  allocate (NotificationService notifier logger).

(** [NotificationService::sendNotification] *)
Definition sendNotification (this : addr) (recipient content : string) : IO unit :=
  self <- load this ;;
  match self with
  | NotificationService notifier logger =>
      message <- formatMessage recipient content ;;
      n <- arrow notifier ;;
      send n message ;;
      l <- arrow logger ;;
      log l ("Notification sent to " +:+ recipient)
  | _ => undefined
  end.

(** The implicit destructor: the members are destroyed in reverse order of
    declaration, then the object is gone. *)
Definition NotificationService_delete (this : addr) : IO unit :=
  self <- load this ;;
  match self with
  | NotificationService notifier logger =>
      unique_ptr_delete logger ;;
      unique_ptr_delete notifier ;;
      release this
  | _ => undefined
  end.

(** [main]. A local [unique_ptr] that was passed through [std::move] is
    [nullptr] from then on; the locals are destroyed in reverse order after
    the return value is fixed. *)
Definition main : IO Z :=
  emailNotifier <- make_unique EmailNotifier ;;
  consoleLogger <- make_unique ConsoleLogger ;;
  service <- NotificationService_new emailNotifier consoleLogger ;;
  let emailNotifier := nullptr in
  let consoleLogger := nullptr in
  sendNotification service "John" "Your order has been shipped!" ;;
  smsNotifier <- make_unique SMSNotifier ;;
  consoleLogger2 <- make_unique ConsoleLogger ;;
  service2 <- NotificationService_new smsNotifier consoleLogger2 ;;
  let smsNotifier := nullptr in
  sendNotification service2 "Alice" "Your appointment is confirmed!" ;;
  let status := 0%Z in
  NotificationService_delete service2 ;;
  unique_ptr_delete smsNotifier ;;
  NotificationService_delete service ;;
  unique_ptr_delete consoleLogger ;;
  unique_ptr_delete emailNotifier ;;
  ret status.

(** ** Observations *)

(** The characters a computation adds to [std::cout] when run from [w]. *)
Definition output {A : Type} (prog : IO A) (w : world) : option string :=
  match prog w with
  | Some (_, w') => Some (skip (String.length (cout w)) (cout w'))
  | None => None
  end.

(** The output lines a computation produces when run from [w]. *)
Definition output_lines {A : Type} (prog : IO A) (w : world) : option (list string) :=
  lines <$> output prog w.

(** ** Vocabulary of the specification *)

(** The Notifier variants, the class of each and its fixed label. *)
Inductive notifier_variant : Type := Email | SMS.

Definition notifier_object (v : notifier_variant) : object :=
  match v with
  | Email => EmailNotifier
  | SMS => SMSNotifier
  end.

Definition notifier_label (v : notifier_variant) : string :=
  match v with
  | Email => "Sending Email: "
  | SMS => "Sending SMS: "
  end.

(** In [w], the object at [s] is a NotificationService that owns the
    Notifier of variant [v] at [n] and the ConsoleLogger at [l]. *)
Definition service_at (w : world) (s : addr) (v : notifier_variant) (n l : addr) : Prop :=
  objects w !! s = Some (NotificationService (Some n) (Some l)) /\
  objects w !! n = Some (notifier_object v) /\
  objects w !! l = Some ConsoleLogger.

(** The characters one [sendNotification] on a service with a Notifier of
    variant [v] is to write: the dispatch, then the record. *)
Definition notification (v : notifier_variant) (recipient content : string) : string :=
  (notifier_label v +:+ ("Dear " +:+ recipient +:+ ", " +:+ content) +:+ endl) +:+
  ("Logging: " +:+ ("Notification sent to " +:+ recipient) +:+ endl).

(** The second of the output lines, when there is one. *)
Definition second_line (ls : option (list string)) : option string :=
  match ls with
  | Some (_ :: l :: _) => Some l
  | _ => None
  end.


(** The pointers [notifier] and [logger] of a service are of their declared
    types in [w]: each is null or holds the address of a live object of a
    class derived from [INotifier], respectively [ILogger]. *)
Definition typed_pointers (w : world) (notifier logger : unique_ptr) : bool :=
  match notifier with
  | Some n => match objects w !! n with
              | Some EmailNotifier | Some SMSNotifier => true
              | _ => false
              end
  | None => true
  end &&
  match logger with
  | Some l => match objects w !! l with
              | Some ConsoleLogger => true
              | _ => false
              end
  | None => true
  end.

(** ** Sample states and texts *)

(** The objects [main] has built by the time of its second
    [sendNotification]: a service at 2 owning the EmailNotifier at 0 and the
    ConsoleLogger at 1, and a service at 5 owning the SMSNotifier at 3 and
    the ConsoleLogger at 4. Nothing has been written yet. *)
Definition office : world :=
  World "" (<[5 := NotificationService (Some 3) (Some 4)]>
           (<[4 := ConsoleLogger]>
           (<[3 := SMSNotifier]>
           (<[2 := NotificationService (Some 0) (Some 1)]>
           (<[1 := ConsoleLogger]>
           (<[0 := EmailNotifier]> ∅)))))).

(** The objects of [main] before its first service is constructed: an
    EmailNotifier at 0 and a ConsoleLogger at 1, owned by no service. *)
Definition lone : world :=
  World "" (<[1 := ConsoleLogger]> (<[0 := EmailNotifier]> ∅)).


(** A text of two lines. *)
Definition two_lines : string := "a" +:+ endl +:+ "b".

(** * Properties *)

(** ** Texts and their lines *)

Lemma append_assoc (a b c : string) : (a +:+ b) +:+ c = a +:+ (b +:+ c).
Proof. induction a as [|ch a IH]; simpl; [reflexivity | now rewrite IH]. Qed.

Lemma append_empty_r (a : string) : a +:+ "" = a.
Proof. induction a as [|ch a IH]; simpl; [reflexivity | now rewrite IH]. Qed.

Lemma length_append (a b : string) :
  String.length (a +:+ b) = String.length a + String.length b.
Proof. induction a as [|ch a IH]; simpl; [reflexivity | now rewrite IH]. Qed.

Lemma skip_append (a b : string) : skip (String.length a) (a +:+ b) = b.
Proof. induction a as [|ch a IH]; simpl; [now destruct b | exact IH]. Qed.

Lemma single_line_append (a b : string) :
  single_line (a +:+ b) = single_line a && single_line b.
Proof.
  induction a as [|ch a IH]; simpl; [reflexivity |].
  now rewrite IH, andb_assoc.
Qed.

Lemma endl_append (rest : string) : endl +:+ rest = String LF rest.
Proof. reflexivity. Qed.

(** A line-feed-free text followed by a line feed is one whole line. *)
Lemma lines_line (a rest : string) :
  single_line a = true -> lines (a +:+ endl +:+ rest) = a :: lines rest.
Proof.
  rewrite endl_append.
  induction a as [|ch a IH]; simpl; intros Ha; [reflexivity |].
  apply andb_true_iff in Ha as [Hch Ha].
  apply negb_true_iff in Hch. rewrite Hch, (IH Ha). reflexivity.
Qed.

(** A line-feed-free prefix only lengthens the first line of what follows. *)
Lemma lines_prefix (a : string) (l : string) (ls : list string) (rest : string) :
  single_line a = true -> lines rest = l :: ls ->
  lines (a +:+ rest) = (a +:+ l) :: ls.
Proof.
  intros Ha Hrest. induction a as [|ch a IH]; simpl; [exact Hrest |].
  simpl in Ha. apply andb_true_iff in Ha as [Hch Ha].
  apply negb_true_iff in Hch. rewrite Hch, (IH Ha). reflexivity.
Qed.

(** ** Running the primitives *)

Implicit Types (w : world) (this : addr) (v : notifier_variant).

(** Sequencing continues from the result and state of the first part. *)
Lemma bind_run {A B : Type} (m : IO A) (k : A -> IO B) w w' (a : A) :
  m w = Some (a, w') -> bind m k w = k a w'.
Proof. intros H. unfold bind. now rewrite H. Qed.

(** One step of a sequence, by the equation [H] of its first part. *)
Tactic Notation "step" uconstr(H) :=
  rewrite (bind_run _ _ _ _ _ H); cbn [cout objects].

Lemma arrow_run w (a : addr) : arrow (Some a) w = Some (a, w).
Proof. reflexivity. Qed.

Lemma load_run w (a : addr) (o : object) :
  objects w !! a = Some o -> load a w = Some (o, w).
Proof. intros H. unfold load. now rewrite H. Qed.

Lemma EmailNotifier_send_run w (message : string) :
  EmailNotifier_send message w =
  Some (tt, World (cout w +:+ "Sending Email: " +:+ message +:+ endl) (objects w)).
Proof.
  unfold EmailNotifier_send, cout_endl, bind, cout_put. cbn [cout objects].
  now rewrite !append_assoc.
Qed.

Lemma SMSNotifier_send_run w (message : string) :
  SMSNotifier_send message w =
  Some (tt, World (cout w +:+ "Sending SMS: " +:+ message +:+ endl) (objects w)).
Proof.
  unfold SMSNotifier_send, cout_endl, bind, cout_put. cbn [cout objects].
  now rewrite !append_assoc.
Qed.

Lemma ConsoleLogger_log_run w (info : string) :
  ConsoleLogger_log info w =
  Some (tt, World (cout w +:+ "Logging: " +:+ info +:+ endl) (objects w)).
Proof.
  unfold ConsoleLogger_log, cout_endl, bind, cout_put. cbn [cout objects].
  now rewrite !append_assoc.
Qed.

(** The virtual call reaches the body of the object's class. *)
Lemma send_run w (this : addr) (v : notifier_variant) (message : string) :
  objects w !! this = Some (notifier_object v) ->
  send this message w =
  Some (tt, World (cout w +:+ notifier_label v +:+ message +:+ endl) (objects w)).
Proof.
  intros H. unfold send. step (load_run _ _ _ H).
  destruct v; [apply EmailNotifier_send_run | apply SMSNotifier_send_run].
Qed.

Lemma log_run w (this : addr) (info : string) :
  objects w !! this = Some ConsoleLogger ->
  log this info w =
  Some (tt, World (cout w +:+ "Logging: " +:+ info +:+ endl) (objects w)).
Proof.
  intros H. unfold log. step (load_run _ _ _ H).
  apply ConsoleLogger_log_run.
Qed.

Lemma formatMessage_run w (recipient content : string) :
  formatMessage recipient content w =
  Some ("Dear " +:+ recipient +:+ ", " +:+ content, w).
Proof. unfold formatMessage, ret. now rewrite !append_assoc. Qed.

Lemma sendNotification_run w (s : addr) (v : notifier_variant) (n l : addr)
    (recipient content : string) :
  service_at w s v n l ->
  sendNotification s recipient content w =
  Some (tt, World (cout w +:+ notification v recipient content) (objects w)).
Proof.
  intros (Hs & Hn & Hl). unfold sendNotification.
  step (load_run _ _ _ Hs).
  step (formatMessage_run w recipient content).
  step (arrow_run w n).
  step (send_run _ _ v ("Dear " +:+ recipient +:+ ", " +:+ content) Hn).
  step (arrow_run (World (cout w +:+ notifier_label v +:+
                          ("Dear " +:+ recipient +:+ ", " +:+ content) +:+ endl)
                         (objects w)) l).
  rewrite log_run by exact Hl. cbn [cout objects].
  unfold notification. now rewrite !append_assoc.
Qed.

(** The output is what was added behind the characters already there. *)
Lemma output_run {A : Type} w (prog : IO A) (a : A) (text : string) (objs : gmap addr object) :
  prog w = Some (a, World (cout w +:+ text) objs) ->
  output prog w = Some text.
Proof. intros H. unfold output. rewrite H. cbn [cout]. now rewrite skip_append. Qed.

(** ** Lines of labelled output *)

Lemma single_line_label (v : notifier_variant) : single_line (notifier_label v) = true.
Proof. now destruct v. Qed.

Lemma lines_one (a : string) : single_line a = true -> lines (a +:+ endl) = [a].
Proof.
  intros Ha. rewrite <- (append_empty_r (a +:+ endl)), append_assoc.
  now rewrite lines_line.
Qed.

Lemma lines_two (a b : string) :
  single_line a = true -> single_line b = true ->
  lines ((a +:+ endl) +:+ (b +:+ endl)) = [a; b].
Proof.
  intros Ha Hb. rewrite append_assoc, lines_line by exact Ha.
  now rewrite lines_one.
Qed.

(** A stream that is not empty has a first line. *)
Lemma lines_first (t : string) :
  t <> "" -> exists first rest, lines t = first :: rest.
Proof.
  destruct t as [|ch t]; [congruence | intros _; simpl].
  destruct (Ascii.eqb ch LF); [eauto |].
  destruct (lines t); eauto.
Qed.

Lemma output_lines_run {A : Type} (w : world) (prog : IO A) (text : string) :
  output prog w = Some text -> output_lines prog w = Some (lines text).
Proof. intros H. unfold output_lines. now rewrite H. Qed.

(** ** The formatter *)

(** C2. For every recipient [r] and content [c] (empty texts, texts that
    contain "Dear" or commas included) [formatMessage r c] returns exactly
    "Dear " + r + ", " + c: run in any state it yields that text, the same
    on every run, and leaves the state as it was, so it has no side effect
    and no way to fail. *)
Theorem formatMessage_exact (r c : string) (w : world) :
  formatMessage r c w = Some ("Dear " +:+ r +:+ ", " +:+ c, w).
Proof. apply formatMessage_run. Qed.

Example formatMessage_empty :
  formatMessage "" "" initial = Some ("Dear , ", initial).
Proof. reflexivity. Qed.

Example formatMessage_nested :
  formatMessage "Dear Sir, Madam" "Dear, dear, dear" initial =
  Some ("Dear Dear Sir, Madam, Dear, dear, dear", initial).
Proof. reflexivity. Qed.

(** The returned text has seven characters more than its two parts. *)
Lemma formatMessage_length (r c : string) (w : world) :
  exists text, formatMessage r c w = Some (text, w) /\
               String.length text = 7 + String.length r + String.length c.
Proof.
  eexists. split; [apply formatMessage_run |].
  rewrite !length_append. simpl. lia.
Qed.

(** ** The Notifier and Logger capabilities *)

(** C4, as amended. For every Notifier variant [v] and every message [m],
    [send] succeeds, changes no object (so no Logger), and writes the
    label of [v], then [m], then a line feed; when [m] holds no line feed
    that is exactly one output line, the label followed by [m]. *)
Theorem send_one_line (w : world) (a : addr) (v : notifier_variant) (m : string) :
  objects w !! a = Some (notifier_object v) ->
  (exists w', send a m w = Some (tt, w') /\ objects w' = objects w) /\
  output (send a m) w = Some (notifier_label v +:+ m +:+ endl) /\
  (single_line m = true ->
   output_lines (send a m) w = Some [notifier_label v +:+ m]).
Proof.
  intros Ha. pose proof (send_run w a v m Ha) as Hrun.
  assert (Hout : output (send a m) w = Some (notifier_label v +:+ m +:+ endl))
    by exact (output_run _ _ _ _ _ Hrun).
  split; [eauto | split; [exact Hout |]].
  intros Hm. rewrite (output_lines_run _ _ _ Hout), <- append_assoc.
  rewrite lines_one; [reflexivity |].
  now rewrite single_line_append, single_line_label.
Qed.

Lemma send_one_line_witness :
  objects office !! 0 = Some (notifier_object Email) /\
  single_line "hello" = true /\
  output_lines (send 0 "hello") office = Some ["Sending Email: hello"].
Proof.
  split; [reflexivity | split; [reflexivity |]].
  apply (send_one_line office 0 Email "hello"); reflexivity.
Defined.

(** C4 as first stated fails on a message of two lines: [send] then
    produces two output lines, not one. *)
Lemma send_two_lines :
  objects office !! 0 = Some (notifier_object Email) /\
  output_lines (send 0 two_lines) office = Some ["Sending Email: a"; "b"] /\
  output_lines (send 0 two_lines) office <> Some [notifier_label Email +:+ two_lines].
Proof. repeat split; [reflexivity.. | discriminate]. Qed.

(** C5, as amended. For every info text [i], [log] on a ConsoleLogger
    succeeds and writes "Logging: ", then [i], then a line feed; when [i]
    holds no line feed that is exactly one output line, "Logging: "
    followed by [i]. *)
Theorem log_one_line (w : world) (a : addr) (i : string) :
  objects w !! a = Some ConsoleLogger ->
  output (log a i) w = Some ("Logging: " +:+ i +:+ endl) /\
  (single_line i = true -> output_lines (log a i) w = Some ["Logging: " +:+ i]).
Proof.
  intros Ha.
  assert (Hout : output (log a i) w = Some ("Logging: " +:+ i +:+ endl))
    by exact (output_run _ _ _ _ _ (log_run w a i Ha)).
  split; [exact Hout |].
  intros Hi. rewrite (output_lines_run _ _ _ Hout), <- append_assoc.
  rewrite lines_one; [reflexivity |].
  now rewrite single_line_append, Hi.
Qed.

Lemma log_one_line_witness :
  objects office !! 1 = Some ConsoleLogger /\
  single_line "started" = true /\
  output_lines (log 1 "started") office = Some ["Logging: started"].
Proof.
  split; [reflexivity | split; [reflexivity |]].
  apply (log_one_line office 1 "started"); reflexivity.
Defined.

(** C5 as first stated fails on an info text of two lines. *)
Lemma log_two_lines :
  objects office !! 1 = Some ConsoleLogger /\
  output_lines (log 1 two_lines) office = Some ["Logging: a"; "b"] /\
  output_lines (log 1 two_lines) office <> Some ["Logging: " +:+ two_lines].
Proof. repeat split; [reflexivity.. | discriminate]. Qed.

(** C9. For every Notifier [n] and message [m], [notifyUser n m] is the
    very computation [n.send m]: from every state both end in the same
    result and state, hence with the same output. *)
Theorem notifyUser_send (n : addr) (m : string) (w : world) :
  notifyUser n m w = send n m w /\
  output (notifyUser n m) w = output (send n m) w.
Proof. split; reflexivity. Qed.

(** ** The service *)

Lemma sendNotification_output (w : world) (s : addr) (v : notifier_variant)
    (n l : addr) (r c : string) :
  service_at w s v n l ->
  output (sendNotification s r c) w = Some (notification v r c).
Proof.
  intros H. exact (output_run _ _ _ _ _ (sendNotification_run w s v n l r c H)).
Qed.

Lemma sendNotification_lines (w : world) (s : addr) (v : notifier_variant)
    (n l : addr) (r c : string) :
  service_at w s v n l ->
  single_line r = true -> single_line c = true ->
  output_lines (sendNotification s r c) w =
  Some [notifier_label v +:+ "Dear " +:+ r +:+ ", " +:+ c;
        "Logging: " +:+ "Notification sent to " +:+ r].
Proof.
  intros H Hr Hc.
  rewrite (output_lines_run _ _ _ (sendNotification_output w s v n l r c H)).
  unfold notification.
  rewrite <- (append_assoc (notifier_label v)), <- (append_assoc "Logging: ").
  rewrite lines_two; [reflexivity | |].
  - rewrite !single_line_append, single_line_label, Hr, Hc. reflexivity.
  - rewrite !single_line_append, Hr. reflexivity.
Qed.

(** C1, as amended. For every recipient [r] and content [c],
    [sendNotification r c] writes what the owned Notifier's [send] writes
    for the formatted message "Dear " + r + ", " + c, then what the owned
    Logger's [log] writes for "Notification sent to " + r; when neither
    [r] nor [c] holds a line feed these are exactly two output lines, in
    that order. *)
Theorem sendNotification_two_lines (w : world) (s : addr) (v : notifier_variant)
    (n l : addr) (r c : string) :
  service_at w s v n l ->
  (exists dispatch record,
     output (send n ("Dear " +:+ r +:+ ", " +:+ c)) w = Some dispatch /\
     output (log l ("Notification sent to " +:+ r)) w = Some record /\
     output (sendNotification s r c) w = Some (dispatch +:+ record)) /\
  (single_line r = true -> single_line c = true ->
   output_lines (sendNotification s r c) w =
   Some [notifier_label v +:+ "Dear " +:+ r +:+ ", " +:+ c;
         "Logging: " +:+ "Notification sent to " +:+ r]).
Proof.
  intros H. pose proof (sendNotification_output w s v n l r c H) as Hout.
  split.
  - destruct H as (Hs & Hn & Hl).
    exists (notifier_label v +:+ ("Dear " +:+ r +:+ ", " +:+ c) +:+ endl),
           ("Logging: " +:+ ("Notification sent to " +:+ r) +:+ endl).
    split; [exact (output_run _ _ _ _ _ (send_run w n v _ Hn)) |].
    split; [exact (output_run _ _ _ _ _ (log_run w l _ Hl)) | exact Hout].
  - intros Hr Hc. now apply (sendNotification_lines w s v n l).
Qed.

Lemma sendNotification_two_lines_witness :
  service_at office 2 Email 0 1 /\
  single_line "John" = true /\ single_line "Your order has been shipped!" = true /\
  output_lines (sendNotification 2 "John" "Your order has been shipped!") office =
  Some ["Sending Email: Dear John, Your order has been shipped!";
        "Logging: Notification sent to John"].
Proof.
  assert (H : service_at office 2 Email 0 1) by (repeat split; reflexivity).
  split; [exact H | split; [reflexivity | split; [reflexivity |]]].
  apply (sendNotification_two_lines office 2 Email 0 1 "John"
           "Your order has been shipped!" H); reflexivity.
Defined.

(** C1 as first stated fails on a content of two lines: three output
    lines are produced. *)
Lemma sendNotification_three_lines :
  service_at office 2 Email 0 1 /\
  output_lines (sendNotification 2 "Bob" two_lines) office =
  Some ["Sending Email: Dear Bob, a"; "b"; "Logging: Notification sent to Bob"] /\
  output_lines (sendNotification 2 "Bob" two_lines) office <>
  Some [notifier_label Email +:+ "Dear " +:+ "Bob" +:+ ", " +:+ two_lines;
        "Logging: " +:+ "Notification sent to " +:+ "Bob"].
Proof. repeat split; [reflexivity.. | discriminate]. Qed.

(** C6. For every recipient [r] and content [c], a service over an
    EmailNotifier and a service over an SMSNotifier, each with a
    ConsoleLogger, produce outputs that differ only in the label that
    opens the first line: the rest of that line and every later line are
    the same, and the text the Logger writes is the same in both runs. *)
Theorem notifier_swap (w1 w2 : world) (s1 n1 l1 s2 n2 l2 : addr) (r c : string) :
  service_at w1 s1 Email n1 l1 ->
  service_at w2 s2 SMS n2 l2 ->
  (exists first rest,
     output_lines (sendNotification s1 r c) w1 = Some (("Sending Email: " +:+ first) :: rest) /\
     output_lines (sendNotification s2 r c) w2 = Some (("Sending SMS: " +:+ first) :: rest)) /\
  (exists dispatch record,
     output (sendNotification s1 r c) w1 = Some ("Sending Email: " +:+ dispatch +:+ record) /\
     output (sendNotification s2 r c) w2 = Some ("Sending SMS: " +:+ dispatch +:+ record) /\
     output (log l1 ("Notification sent to " +:+ r)) w1 = Some record /\
     output (log l2 ("Notification sent to " +:+ r)) w2 = Some record).
Proof.
  intros H1 H2.
  pose proof (sendNotification_output w1 s1 Email n1 l1 r c H1) as Hout1.
  pose proof (sendNotification_output w2 s2 SMS n2 l2 r c H2) as Hout2.
  destruct H1 as (_ & _ & Hl1), H2 as (_ & _ & Hl2).
  set (dispatch := ("Dear " +:+ r +:+ ", " +:+ c) +:+ endl).
  set (record := "Logging: " +:+ ("Notification sent to " +:+ r) +:+ endl).
  assert (Hn : forall v, notification v r c = notifier_label v +:+ dispatch +:+ record).
  { intros v. unfold notification, dispatch, record. now rewrite !append_assoc. }
  rewrite Hn in Hout1, Hout2. split.
  - destruct (lines_first (dispatch +:+ record)) as (first & rest & Hl);
      [unfold dispatch; now destruct r |].
    exists first, rest.
    rewrite (output_lines_run _ _ _ Hout1), (output_lines_run _ _ _ Hout2).
    now rewrite !(lines_prefix _ first rest _ (single_line_label _) Hl).
  - exists dispatch, record. repeat split; [exact Hout1 | exact Hout2 | |].
    + exact (output_run _ _ _ _ _ (log_run w1 l1 _ Hl1)).
    + exact (output_run _ _ _ _ _ (log_run w2 l2 _ Hl2)).
Qed.

Lemma notifier_swap_witness :
  service_at office 2 Email 0 1 /\ service_at office 5 SMS 3 4 /\
  exists first rest,
    output_lines (sendNotification 2 "John" two_lines) office =
      Some (("Sending Email: " +:+ first) :: rest) /\
    output_lines (sendNotification 5 "John" two_lines) office =
      Some (("Sending SMS: " +:+ first) :: rest).
Proof.
  assert (H1 : service_at office 2 Email 0 1) by (repeat split; reflexivity).
  assert (H2 : service_at office 5 SMS 3 4) by (repeat split; reflexivity).
  split; [exact H1 | split; [exact H2 |]].
  apply (notifier_swap office office 2 0 1 5 3 4 "John" two_lines H1 H2).
Defined.

(** C10, as amended. For every recipient [r] and contents [c1], [c2],
    what [sendNotification] writes is the owned Notifier's dispatch of the
    formatted message followed by the Logger's record and nothing else,
    and that record, what the owned Logger's [log] writes for
    "Notification sent to " + r, is one and the same text for [c1] and for
    [c2]: the logged event depends on the recipient alone. When [r], [c1]
    and [c2] hold no line feed, the record is the second output line of
    both runs. *)
Theorem record_ignores_content (w : world) (s : addr) (v : notifier_variant)
    (n l : addr) (r c1 c2 : string) :
  service_at w s v n l ->
  (exists record dispatch1 dispatch2,
     record = "Logging: " +:+ ("Notification sent to " +:+ r) +:+ endl /\
     output (log l ("Notification sent to " +:+ r)) w = Some record /\
     output (send n ("Dear " +:+ r +:+ ", " +:+ c1)) w = Some dispatch1 /\
     output (send n ("Dear " +:+ r +:+ ", " +:+ c2)) w = Some dispatch2 /\
     output (sendNotification s r c1) w = Some (dispatch1 +:+ record) /\
     output (sendNotification s r c2) w = Some (dispatch2 +:+ record)) /\
  (single_line r = true -> single_line c1 = true -> single_line c2 = true ->
   second_line (output_lines (sendNotification s r c1) w) =
     second_line (output_lines (sendNotification s r c2) w) /\
   second_line (output_lines (sendNotification s r c1) w) =
     Some ("Logging: " +:+ "Notification sent to " +:+ r)).
Proof.
  intros H. split.
  - pose proof H as (_ & Hn & Hl).
    exists ("Logging: " +:+ ("Notification sent to " +:+ r) +:+ endl),
           (notifier_label v +:+ ("Dear " +:+ r +:+ ", " +:+ c1) +:+ endl),
           (notifier_label v +:+ ("Dear " +:+ r +:+ ", " +:+ c2) +:+ endl).
    split; [reflexivity |].
    split; [exact (output_run _ _ _ _ _ (log_run w l _ Hl)) |].
    split; [exact (output_run _ _ _ _ _ (send_run w n v _ Hn)) |].
    split; [exact (output_run _ _ _ _ _ (send_run w n v _ Hn)) |].
    split; exact (sendNotification_output w s v n l r _ H).
  - intros Hr H1 H2.
    now rewrite !(sendNotification_lines w s v n l r _ H Hr) by assumption.
Qed.

Lemma record_ignores_content_witness :
  service_at office 5 SMS 3 4 /\
  single_line "Alice" = true /\ single_line "one" = true /\ single_line "two" = true /\
  second_line (output_lines (sendNotification 5 "Alice" "one") office) =
  second_line (output_lines (sendNotification 5 "Alice" "two") office).
Proof.
  assert (H : service_at office 5 SMS 3 4) by (repeat split; reflexivity).
  split; [exact H | repeat (split; [reflexivity |])].
  apply (record_ignores_content office 5 SMS 3 4 "Alice" "one" "two" H); reflexivity.
Defined.

(** C10 as first stated fails when one content has two lines: the second
    output line is then the rest of that content, not the record. *)
Lemma second_line_shows_content :
  service_at office 2 Email 0 1 /\
  second_line (output_lines (sendNotification 2 "Bob" two_lines) office) = Some "b" /\
  second_line (output_lines (sendNotification 2 "Bob" "x") office) =
    Some "Logging: Notification sent to Bob" /\
  second_line (output_lines (sendNotification 2 "Bob" two_lines) office) <>
  second_line (output_lines (sendNotification 2 "Bob" "x") office).
Proof. repeat split; [reflexivity.. | discriminate]. Qed.

(** ** Objects and their lifetime *)

(** A fresh address holds no object. *)
Lemma fresh_free (objs : gmap addr object) : objs !! fresh (dom objs) = None.
Proof. apply not_elem_of_dom, is_fresh. Qed.

Lemma fresh_ne (objs : gmap addr object) (a : addr) (o : object) :
  objs !! a = Some o -> a <> fresh (dom objs).
Proof. intros H ->. rewrite fresh_free in H. discriminate. Qed.

(** Three allocations in a row yield three distinct addresses, all of them
    free before the first. *)
Lemma fresh_chain (objs : gmap addr object) (oa ob : object) :
  let a := fresh (dom objs) in
  let b := fresh (dom (<[a:=oa]> objs)) in
  let c := fresh (dom (<[b:=ob]> (<[a:=oa]> objs))) in
  (objs !! a = None /\ objs !! b = None /\ objs !! c = None) /\
  (a <> b /\ a <> c /\ b <> c).
Proof.
  intros a b c.
  assert (Hab : a <> b) by (apply (fresh_ne _ a oa), lookup_insert_eq).
  assert (Hbc : b <> c) by (apply (fresh_ne _ b ob), lookup_insert_eq).
  assert (Hac : a <> c).
  { apply (fresh_ne _ a oa). rewrite lookup_insert_ne by congruence.
    apply lookup_insert_eq. }
  repeat split; try assumption.
  - apply fresh_free.
  - rewrite <- (lookup_insert_ne objs a b oa) by assumption. apply fresh_free.
  - rewrite <- (lookup_insert_ne objs a c oa) by assumption.
    rewrite <- (lookup_insert_ne _ b c ob) by assumption. apply fresh_free.
Qed.

(** A service built over a Notifier and a Logger at distinct addresses. *)
Lemma service_at_built (out : string) (objs : gmap addr object)
    (v : notifier_variant) (n l s : addr) :
  n <> l -> n <> s -> l <> s ->
  service_at (World out (<[s:=NotificationService (Some n) (Some l)]>
                        (<[l:=ConsoleLogger]> (<[n:=notifier_object v]> objs))))
             s v n l.
Proof.
  intros Hnl Hns Hls. unfold service_at. cbn [objects]. repeat split.
  - apply lookup_insert_eq.
  - rewrite !lookup_insert_ne by congruence. apply lookup_insert_eq.
  - rewrite lookup_insert_ne by congruence. apply lookup_insert_eq.
Qed.

(** Releasing the three objects of a service gives back the memory as it
    was before they were made. *)
Lemma release_built (objs : gmap addr object) (n l s : addr) (on ol os : object) :
  objs !! n = None -> objs !! l = None -> objs !! s = None ->
  delete s (delete n (delete l (<[s:=os]> (<[l:=ol]> (<[n:=on]> objs))))) = objs.
Proof.
  intros Hn Hl Hs. apply map_eq. intros i.
  rewrite !lookup_delete, !lookup_insert.
  repeat case_decide; congruence.
Qed.

Lemma make_unique_run (w : world) (o : object) :
  make_unique o w =
  Some (Some (fresh (dom (objects w))),
        World (cout w) (<[fresh (dom (objects w)) := o]> (objects w))).
Proof. reflexivity. Qed.

Lemma NotificationService_new_run (w : world) (notifier logger : unique_ptr) :
  NotificationService_new notifier logger w =
  Some (fresh (dom (objects w)),
        World (cout w) (<[fresh (dom (objects w)) := NotificationService notifier logger]>
                          (objects w))).
Proof. reflexivity. Qed.

Lemma release_run (w : world) (a : addr) (o : object) :
  objects w !! a = Some o ->
  release a w = Some (tt, World (cout w) (delete a (objects w))).
Proof. intros H. unfold release. now rewrite H. Qed.

(** The service, its Notifier and its Logger are three different objects. *)
Lemma service_at_distinct (w : world) (s : addr) (v : notifier_variant) (n l : addr) :
  service_at w s v n l -> n <> l /\ n <> s /\ l <> s.
Proof.
  intros (Hs & Hn & Hl). repeat split; intros ->; destruct v; simpl in *; congruence.
Qed.

(** Destroying a service that owns both its objects takes all three away. *)
Lemma NotificationService_delete_run (w : world) (s : addr) (v : notifier_variant)
    (n l : addr) :
  service_at w s v n l ->
  NotificationService_delete s w =
  Some (tt, World (cout w) (delete s (delete n (delete l (objects w))))).
Proof.
  intros H. destruct (service_at_distinct w s v n l H) as (Hnl & Hns & Hls).
  destruct H as (Hs & Hn & Hl). unfold NotificationService_delete.
  step (load_run w s _ Hs). unfold unique_ptr_delete.
  step (release_run w l _ Hl).
  assert (Hn' : objects (World (cout w) (delete l (objects w))) !! n =
                Some (notifier_object v))
    by (cbn [objects]; now rewrite lookup_delete_ne by congruence).
  step (release_run _ n _ Hn').
  assert (Hs' : objects (World (cout w) (delete n (delete l (objects w)))) !! s =
                Some (NotificationService (Some n) (Some l)))
    by (cbn [objects]; now rewrite !lookup_delete_ne by congruence).
  now rewrite (release_run _ s _ Hs').
Qed.

(** One step of a sequence that begins with the destruction of the
    service which [H] shows to own both its objects. *)
Tactic Notation "destroy" constr(H) :=
  match goal with
  | |- context [bind (NotificationService_delete _) _ ?w] =>
      match type of H with
      | service_at _ ?s ?v ?n ?l =>
          step (NotificationService_delete_run w s v n l H)
      end
  end.


(** From any state, [main] returns 0, writes its two notifications and
    leaves no object behind. *)
Lemma main_run (w : world) :
  main w =
  Some (0%Z, World (cout w +:+ notification Email "John" "Your order has been shipped!"
                          +:+ notification SMS "Alice" "Your appointment is confirmed!")
                   (objects w)).
Proof.
  destruct w as [out objs]. unfold main.
  destruct (fresh_chain objs EmailNotifier ConsoleLogger)
    as ((F0 & F1 & F2) & (N01 & N02 & N12)).
  step (make_unique_run _ _).
  step (make_unique_run _ _).
  step (NotificationService_new_run _ _ _).
  set (a0 := fresh (dom objs)) in *.
  set (a1 := fresh (dom (<[a0:=EmailNotifier]> objs))) in *.
  set (s1 := fresh (dom (<[a1:=ConsoleLogger]> (<[a0:=EmailNotifier]> objs)))) in *.
  set (objs1 := <[s1:=NotificationService (Some a0) (Some a1)]> _).
  pose proof (service_at_built out objs Email a0 a1 s1 N01 N02 N12) as S1.
  fold objs1 in S1.
  step (sendNotification_run _ s1 Email a0 a1 "John" "Your order has been shipped!" S1).
  destruct (fresh_chain objs1 SMSNotifier ConsoleLogger)
    as ((G0 & G1 & G2) & (M01 & M02 & M12)).
  step (make_unique_run _ _).
  step (make_unique_run _ _).
  step (NotificationService_new_run _ _ _).
  set (a2 := fresh (dom objs1)) in *.
  set (a3 := fresh (dom (<[a2:=SMSNotifier]> objs1))) in *.
  set (s2 := fresh (dom (<[a3:=ConsoleLogger]> (<[a2:=SMSNotifier]> objs1)))) in *.
  pose proof (service_at_built
                (out +:+ notification Email "John" "Your order has been shipped!")
                objs1 SMS a2 a3 s2 M01 M02 M12) as S2.
  step (sendNotification_run _ s2 SMS a2 a3 "Alice" "Your appointment is confirmed!" S2).
  destroy S2.
  rewrite (release_built objs1 a2 a3 s2) by assumption.
  unfold unique_ptr_delete, nullptr. rewrite (bind_run _ _ _ _ _ eq_refl).
  destroy S1.
  unfold objs1.
  rewrite (release_built objs a0 a1 s1) by assumption.
  unfold bind, ret. now rewrite append_assoc.
Qed.




(** C8, as amended. Every operation succeeds for every text it is given:
    [formatMessage] in any state, [send] on every live Notifier, [log] on
    every live Logger, whether a service owns them or not, and
    [sendNotification] on every service that owns a Notifier and a
    Logger. Each returns without an error value; none has a failure
    branch. *)
Theorem operations_succeed (w : world) (r c m i : string) :
  (exists text, formatMessage r c w = Some (text, w)) /\
  (forall (a : addr) (v : notifier_variant),
     objects w !! a = Some (notifier_object v) ->
     exists w', send a m w = Some (tt, w')) /\
  (forall a : addr,
     objects w !! a = Some ConsoleLogger ->
     exists w', log a i w = Some (tt, w')) /\
  (forall (s : addr) (v : notifier_variant) (n l : addr),
     service_at w s v n l ->
     exists w', sendNotification s r c w = Some (tt, w')).
Proof.
  split; [eexists; apply formatMessage_run |].
  split; [intros a v Ha; eexists; exact (send_run w a v m Ha) |].
  split; [intros a Ha; eexists; exact (log_run w a i Ha) |].
  intros s v n l H. eexists. exact (sendNotification_run w s v n l r c H).
Qed.

Lemma operations_succeed_witness :
  (objects lone !! 0 = Some (notifier_object Email) /\
   exists w', send 0 two_lines lone = Some (tt, w')) /\
  (objects lone !! 1 = Some ConsoleLogger /\
   exists w', log 1 "" lone = Some (tt, w')) /\
  (service_at office 5 SMS 3 4 /\
   exists w', sendNotification 5 "" "" office = Some (tt, w')).
Proof.
  assert (H : service_at office 5 SMS 3 4) by (repeat split; reflexivity).
  split; [| split]; (split; [first [reflexivity | exact H] |]).
  - apply (operations_succeed lone "" "" two_lines "" ) with (v := Email). reflexivity.
  - apply (operations_succeed lone "" "" two_lines ""). reflexivity.
  - apply (operations_succeed office "" "" two_lines "" ) with (v := SMS) (n := 3) (l := 4).
    exact H.
Defined.

(** C8 as first stated fails: a service built with a null Notifier
    dereferences it in [sendNotification], which is no success. *)
Lemma sendNotification_on_null :
  (logger <- make_unique ConsoleLogger ;;
   service <- NotificationService_new nullptr logger ;;
   sendNotification service "John" "Your order has been shipped!") initial = None.
Proof. reflexivity. Qed.

(** ** The entry point *)

(** C3. Whatever state it starts in, [main] returns exit code 0, leaves
    the objects as it found them and produces exactly four output lines,
    in this order. *)
Theorem main_four_lines (w : world) :
  (exists w', main w = Some (0%Z, w') /\ objects w' = objects w) /\
  output_lines main w =
  Some ["Sending Email: Dear John, Your order has been shipped!";
        "Logging: Notification sent to John";
        "Sending SMS: Dear Alice, Your appointment is confirmed!";
        "Logging: Notification sent to Alice"].
Proof.
  split; [rewrite main_run; eauto |].
  now rewrite (output_lines_run _ _ _ (output_run _ _ _ _ _ (main_run w))).
Qed.

(** The run of a fresh process, evaluated. *)
Example main_initial :
  main initial =
  Some (0%Z, World ("Sending Email: Dear John, Your order has been shipped!" +:+ endl +:+
                    "Logging: Notification sent to John" +:+ endl +:+
                    "Sending SMS: Dear Alice, Your appointment is confirmed!" +:+ endl +:+
                    "Logging: Notification sent to Alice" +:+ endl) ∅).
Proof. reflexivity. Qed.

(** [office] is what the constructions of [main] build. *)
Example office_built :
  (emailNotifier <- make_unique EmailNotifier ;;
   consoleLogger <- make_unique ConsoleLogger ;;
   service <- NotificationService_new emailNotifier consoleLogger ;;
   smsNotifier <- make_unique SMSNotifier ;;
   consoleLogger2 <- make_unique ConsoleLogger ;;
   service2 <- NotificationService_new smsNotifier consoleLogger2 ;;
   ret (service, service2)) initial = Some ((2, 5), office).
Proof. reflexivity. Qed.

(** * Further properties of the code *)

(** ** Texts *)

Lemma append_inv_head (a b c : string) : a +:+ b = a +:+ c -> b = c.
Proof. induction a as [|ch a IH]; simpl; [auto | intros [= H]; auto]. Qed.

Lemma append_inv_tail (a b c : string) : a +:+ c = b +:+ c -> a = b.
Proof.
  revert b. induction a as [|ch a IH]; intros [|ch' b] H; simpl in H.
  - reflexivity.
  - apply (f_equal String.length) in H. simpl in H.
    rewrite length_append in H. lia.
  - apply (f_equal String.length) in H. simpl in H.
    rewrite length_append in H. lia.
  - injection H as -> H. f_equal. now apply IH.
Qed.

(** ** The formatter *)

(** X1. The formatted message keeps each of its two parts apart from the
    other: with the recipient fixed it determines the content, and with
    the content fixed it determines the recipient. *)
Theorem formatMessage_inj_each (r1 r2 c1 c2 : string) (w : world) :
  formatMessage r1 c1 w = formatMessage r2 c2 w ->
  (r1 = r2 -> c1 = c2) /\ (c1 = c2 -> r1 = r2).
Proof.
  rewrite !formatMessage_run. intros H.
  apply (f_equal (option_map fst)) in H. injection H as H.
  split; intros ->.
  - apply append_inv_head in H. now injection H.
  - now apply append_inv_tail in H.
Qed.

Lemma formatMessage_inj_each_witness :
  formatMessage "John" "shipped" initial = formatMessage "John" "shipped" initial /\
  (("John" : string) = "John" -> ("shipped" : string) = "shipped").
Proof.
  split; [reflexivity |].
  apply (formatMessage_inj_each "John" "John" "shipped" "shipped" initial).
  reflexivity.
Defined.

(** X2. The formatted message does not say where the recipient ends: a
    recipient that goes on with ", " and a text [x] gives the same message
    as the shorter recipient with [x] and ", " put before the content. *)
Theorem formatMessage_ambiguous (r x c : string) (w : world) :
  formatMessage (r +:+ ", " +:+ x) c w = formatMessage r (x +:+ ", " +:+ c) w.
Proof. rewrite !formatMessage_run. now rewrite !append_assoc. Qed.

(** X3. The formatted message is seven characters longer than recipient
    and content together, so it is never empty. *)
Theorem formatMessage_size (r c : string) (w : world) :
  exists text,
    formatMessage r c w = Some (text, w) /\
    String.length text = 7 + String.length r + String.length c /\
    text <> "".
Proof.
  destruct (formatMessage_length r c w) as (text & Hrun & Hlen).
  exists text. split; [exact Hrun | split; [exact Hlen |]].
  intros ->. simpl in Hlen. lia.
Qed.

(** ** The Notifier and Logger capabilities *)

(** X4. What an EmailNotifier writes is never what an SMSNotifier writes,
    whatever the two messages: the channel can be read off the output. *)
Theorem send_channels_differ (w1 w2 : world) (a1 a2 : addr) (m1 m2 : string) :
  objects w1 !! a1 = Some EmailNotifier ->
  objects w2 !! a2 = Some SMSNotifier ->
  output (send a1 m1) w1 <> output (send a2 m2) w2.
Proof.
  intros H1 H2.
  rewrite (output_run _ _ _ _ _ (send_run w1 a1 Email m1 H1)).
  rewrite (output_run _ _ _ _ _ (send_run w2 a2 SMS m2 H2)).
  simpl. discriminate.
Qed.

Lemma send_channels_differ_witness :
  objects office !! 0 = Some EmailNotifier /\
  objects office !! 3 = Some SMSNotifier /\
  output (send 0 "MS: x") office <> output (send 3 "x") office.
Proof.
  split; [reflexivity | split; [reflexivity |]].
  apply (send_channels_differ office office 0 3 "MS: x" "x"); reflexivity.
Defined.

(** X5. A Notifier writes its message in full: two messages sent through
    the same Notifier give the same output only if they are the same
    message. *)
Theorem send_inj (w : world) (a : addr) (v : notifier_variant) (m1 m2 : string) :
  objects w !! a = Some (notifier_object v) ->
  output (send a m1) w = output (send a m2) w ->
  m1 = m2.
Proof.
  intros Ha.
  rewrite !(output_run _ _ _ _ _ (send_run w a v _ Ha)).
  intros [= H]. apply append_inv_head in H. now apply append_inv_tail in H.
Qed.

Lemma send_inj_witness :
  objects office !! 3 = Some (notifier_object SMS) /\
  output (send 3 two_lines) office = output (send 3 two_lines) office /\
  two_lines = two_lines.
Proof.
  split; [reflexivity | split; [reflexivity |]].
  apply (send_inj office 3 SMS two_lines two_lines); reflexivity.
Defined.

(** X6. The ConsoleLogger writes its info text in full: two texts give
    the same output only if they are the same text. *)
Theorem log_inj (w : world) (a : addr) (i1 i2 : string) :
  objects w !! a = Some ConsoleLogger ->
  output (log a i1) w = output (log a i2) w ->
  i1 = i2.
Proof.
  intros Ha.
  rewrite !(output_run _ _ _ _ _ (log_run w a _ Ha)).
  intros [= H]. now apply append_inv_tail in H.
Qed.

Lemma log_inj_witness :
  objects office !! 4 = Some ConsoleLogger /\
  output (log 4 "") office = output (log 4 "") office /\
  ("" : string) = "".
Proof.
  split; [reflexivity | split; [reflexivity |]].
  apply (log_inj office 4 "" ""); reflexivity.
Defined.

(** ** The service *)

(** X7. On a service whose two pointers are of their declared types,
    [sendNotification] is defined exactly when neither pointer is null;
    a null Notifier or a null Logger makes every call undefined, whatever
    the texts. *)
Theorem sendNotification_defined_iff (w : world) (s : addr)
    (notifier logger : unique_ptr) (r c : string) :
  objects w !! s = Some (NotificationService notifier logger) ->
  typed_pointers w notifier logger = true ->
  sendNotification s r c w <> None <-> notifier <> None /\ logger <> None.
Proof.
  intros Hs Ht. unfold typed_pointers in Ht. apply andb_true_iff in Ht as [Hn Hl].
  destruct notifier as [n|].
  - assert (exists v, objects w !! n = Some (notifier_object v)) as [v Hv].
    { destruct (objects w !! n) as [[| | |]|]; try discriminate;
        [now exists Email | now exists SMS]. }
    destruct logger as [l|].
    + assert (objects w !! l = Some ConsoleLogger) as Hl'.
      { destruct (objects w !! l) as [[| | |]|]; now try discriminate. }
      rewrite (sendNotification_run w s v n l r c (conj Hs (conj Hv Hl'))).
      split; [intros _; split |]; discriminate.
    + unfold sendNotification.
      step (load_run _ _ _ Hs). step (formatMessage_run w r c).
      step (arrow_run w n).
      step (send_run _ _ v ("Dear " +:+ r +:+ ", " +:+ c) Hv).
      split; [intros H | intros [_ H]]; now destruct H.
  - unfold sendNotification.
    step (load_run _ _ _ Hs). step (formatMessage_run w r c).
    split; [intros H | intros [H _]]; now destruct H.
Qed.

Lemma sendNotification_defined_iff_witness :
  objects office !! 2 = Some (NotificationService (Some 0) (Some 1)) /\
  typed_pointers office (Some 0) (Some 1) = true /\
  sendNotification 2 "John" "hello" office <> None.
Proof.
  split; [reflexivity | split; [reflexivity |]].
  apply (sendNotification_defined_iff office 2 (Some 0) (Some 1) "John" "hello");
    [reflexivity | reflexivity | split; discriminate].
Defined.

(** X8. For texts without line feed the two output lines of
    [sendNotification] say who was notified and with what: two calls on
    the same service with the same output lines had the same recipient
    and the same content. *)
Theorem sendNotification_lines_inj (w : world) (s : addr) (v : notifier_variant)
    (n l : addr) (r1 c1 r2 c2 : string) :
  service_at w s v n l ->
  single_line r1 = true -> single_line c1 = true ->
  single_line r2 = true -> single_line c2 = true ->
  output_lines (sendNotification s r1 c1) w = output_lines (sendNotification s r2 c2) w ->
  r1 = r2 /\ c1 = c2.
Proof.
  intros H Hr1 Hc1 Hr2 Hc2.
  rewrite !(sendNotification_lines w s v n l _ _ H) by assumption.
  intros H'. injection H' as Hd Hr.
  subst r2. split; [reflexivity |].
  apply append_inv_head in Hd. injection Hd as Hd.
  apply append_inv_head in Hd. now injection Hd.
Qed.

Lemma sendNotification_lines_inj_witness :
  service_at office 2 Email 0 1 /\
  single_line "John" = true /\ single_line "hello" = true /\
  output_lines (sendNotification 2 "John" "hello") office =
  output_lines (sendNotification 2 "John" "hello") office /\
  ("John" : string) = "John" /\ ("hello" : string) = "hello".
Proof.
  assert (H : service_at office 2 Email 0 1) by (repeat split; reflexivity).
  split; [exact H | repeat (split; [reflexivity |])].
  apply (sendNotification_lines_inj office 2 Email 0 1 "John" "hello" "John" "hello" H);
    reflexivity.
Defined.

(** The two lines of a notification stand before the lines of whatever is
    written next. *)
Lemma notification_lines (v : notifier_variant) (r c rest : string) :
  single_line r = true -> single_line c = true ->
  lines (notification v r c +:+ rest) =
  (notifier_label v +:+ "Dear " +:+ r +:+ ", " +:+ c) ::
  ("Logging: " +:+ "Notification sent to " +:+ r) :: lines rest.
Proof.
  intros Hr Hc.
  assert (E : notification v r c +:+ rest =
              (notifier_label v +:+ "Dear " +:+ r +:+ ", " +:+ c) +:+ endl +:+
              ("Logging: " +:+ "Notification sent to " +:+ r) +:+ endl +:+ rest)
    by (unfold notification; now rewrite !append_assoc).
  rewrite E, !lines_line; [reflexivity | |].
  - now rewrite !single_line_append, Hr.
  - now rewrite !single_line_append, single_line_label, Hr, Hc.
Qed.

(** X9. Notifications add up: a [sendNotification] on one service followed
    by a [sendNotification] on another (or the same) writes the first
    notification and then the second, nothing between them, and for texts
    without line feed that makes four output lines. *)
Theorem sendNotification_twice (w : world) (s1 n1 l1 s2 n2 l2 : addr)
    (v1 v2 : notifier_variant) (r1 c1 r2 c2 : string) :
  service_at w s1 v1 n1 l1 ->
  service_at w s2 v2 n2 l2 ->
  output (sendNotification s1 r1 c1 ;; sendNotification s2 r2 c2) w =
    Some (notification v1 r1 c1 +:+ notification v2 r2 c2) /\
  (single_line r1 = true -> single_line c1 = true ->
   single_line r2 = true -> single_line c2 = true ->
   output_lines (sendNotification s1 r1 c1 ;; sendNotification s2 r2 c2) w =
   Some [notifier_label v1 +:+ "Dear " +:+ r1 +:+ ", " +:+ c1;
         "Logging: " +:+ "Notification sent to " +:+ r1;
         notifier_label v2 +:+ "Dear " +:+ r2 +:+ ", " +:+ c2;
         "Logging: " +:+ "Notification sent to " +:+ r2]).
Proof.
  intros H1 H2.
  assert (Hout : output (sendNotification s1 r1 c1 ;; sendNotification s2 r2 c2) w =
                 Some (notification v1 r1 c1 +:+ notification v2 r2 c2)).
  { apply (output_run _ _ tt _ (objects w)).
    step (sendNotification_run w s1 v1 n1 l1 r1 c1 H1).
    rewrite (sendNotification_run (World (cout w +:+ notification v1 r1 c1) (objects w))
               s2 v2 n2 l2 r2 c2 H2).
    cbn [cout objects].
    now rewrite append_assoc. }
  split; [exact Hout |]. intros Hr1 Hc1 Hr2 Hc2.
  rewrite (output_lines_run _ _ _ Hout).
  rewrite notification_lines by assumption.
  rewrite <- (append_empty_r (notification v2 r2 c2)).
  now rewrite notification_lines by assumption.
Qed.

Lemma sendNotification_twice_witness :
  service_at office 2 Email 0 1 /\ service_at office 5 SMS 3 4 /\
  output (sendNotification 2 "John" two_lines ;; sendNotification 5 "Alice" "") office =
  Some (notification Email "John" two_lines +:+ notification SMS "Alice" "").
Proof.
  assert (H1 : service_at office 2 Email 0 1) by (repeat split; reflexivity).
  assert (H2 : service_at office 5 SMS 3 4) by (repeat split; reflexivity).
  split; [exact H1 | split; [exact H2 |]].
  apply (sendNotification_twice office 2 0 1 5 3 4 Email SMS "John" two_lines "Alice" "" H1 H2).
Defined.

(** ** Objects and their lifetime *)

(** X10. Destroying a service whose pointers are of their declared types
    writes nothing and takes away the service and whatever its two
    pointers own, a null pointer owning nothing; every other object stays
    as it is. *)
Theorem NotificationService_delete_frees (w : world) (s : addr)
    (notifier logger : unique_ptr) :
  objects w !! s = Some (NotificationService notifier logger) ->
  typed_pointers w notifier logger = true ->
  exists w',
    NotificationService_delete s w = Some (tt, w') /\
    cout w' = cout w /\
    forall a : addr,
      objects w' !! a =
      if decide (a = s \/ notifier = Some a \/ logger = Some a) then None
      else objects w !! a.
Proof.
  intros Hs Ht. unfold typed_pointers in Ht. apply andb_true_iff in Ht as [Hn Hl].
  assert (Hn' : forall n, notifier = Some n ->
                exists o, objects w !! n = Some o /\ o <> ConsoleLogger /\
                          o <> NotificationService notifier logger).
  { intros n ->. destruct (objects w !! n) as [[| | |]|]; try discriminate;
      eexists; (split; [reflexivity | split; discriminate]). }
  assert (Hl' : forall l, logger = Some l ->
                objects w !! l = Some ConsoleLogger /\ l <> s).
  { intros l ->. destruct (objects w !! l) as [[| | |]|] eqn:E; try discriminate.
    split; [reflexivity | intros ->; congruence]. }
  clear Hn Hl. unfold NotificationService_delete. step (load_run _ _ _ Hs).
  destruct logger as [l|]; [destruct (Hl' l eq_refl) as [El Hls] |];
    (destruct notifier as [n|];
     [destruct (Hn' n eq_refl) as (o & En & Ho1 & Ho2);
      assert (n <> s) by (intros ->; congruence) |]);
    unfold unique_ptr_delete.
  - assert (n <> l) by (intros ->; congruence).
    step (release_run w l _ El).
    assert (En' : objects (World (cout w) (delete l (objects w))) !! n = Some o)
      by (cbn [objects]; now rewrite lookup_delete_ne by congruence).
    step (release_run _ n _ En').
    assert (Hs' : objects (World (cout w) (delete n (delete l (objects w)))) !! s =
                  Some (NotificationService (Some n) (Some l)))
      by (cbn [objects]; now rewrite !lookup_delete_ne by congruence).
    rewrite (release_run _ s _ Hs'). cbn [cout objects].
    eexists. split; [reflexivity | split; [reflexivity |]].
    intros a. cbn [objects]. rewrite !lookup_delete.
    repeat case_decide; intuition congruence.
  - step (release_run w l _ El).
    rewrite (bind_run _ _ _ _ _ eq_refl).
    assert (Hs' : objects (World (cout w) (delete l (objects w))) !! s =
                  Some (NotificationService None (Some l)))
      by (cbn [objects]; now rewrite !lookup_delete_ne by congruence).
    rewrite (release_run _ s _ Hs'). cbn [cout objects].
    eexists. split; [reflexivity | split; [reflexivity |]].
    intros a. cbn [objects]. rewrite !lookup_delete.
    repeat case_decide; intuition congruence.
  - rewrite (bind_run _ _ _ _ _ eq_refl).
    step (release_run w n _ En).
    assert (Hs' : objects (World (cout w) (delete n (objects w))) !! s =
                  Some (NotificationService (Some n) None))
      by (cbn [objects]; now rewrite !lookup_delete_ne by congruence).
    rewrite (release_run _ s _ Hs'). cbn [cout objects].
    eexists. split; [reflexivity | split; [reflexivity |]].
    intros a. cbn [objects]. rewrite !lookup_delete.
    repeat case_decide; intuition congruence.
  - rewrite !(bind_run _ _ _ _ _ eq_refl).
    rewrite (release_run _ s _ Hs). cbn [cout objects].
    eexists. split; [reflexivity | split; [reflexivity |]].
    intros a. cbn [objects]. rewrite !lookup_delete.
    repeat case_decide; intuition congruence.
Qed.

Lemma NotificationService_delete_frees_witness :
  objects office !! 5 = Some (NotificationService (Some 3) (Some 4)) /\
  typed_pointers office (Some 3) (Some 4) = true /\
  exists w',
    NotificationService_delete 5 office = Some (tt, w') /\
    cout w' = cout office /\
    forall a : addr,
      objects w' !! a =
      if decide (a = 5 \/ Some 3 = Some a \/ Some 4 = Some a) then None
      else objects office !! a.
Proof.
  split; [reflexivity | split; [reflexivity |]].
  apply (NotificationService_delete_frees office 5 (Some 3) (Some 4)); reflexivity.
Defined.

(** X11. A service that is built over a new Notifier and a new Logger,
    used for one notification and destroyed leaves the memory exactly as
    it was: the only trace is the notification on the output. *)
Theorem service_scope (w : world) (v : notifier_variant) (r c : string) :
  (notifier <- make_unique (notifier_object v) ;;
   logger <- make_unique ConsoleLogger ;;
   service <- NotificationService_new notifier logger ;;
   sendNotification service r c ;;
   NotificationService_delete service) w =
  Some (tt, World (cout w +:+ notification v r c) (objects w)).
Proof.
  destruct w as [out objs].
  destruct (fresh_chain objs (notifier_object v) ConsoleLogger)
    as ((F0 & F1 & F2) & (N01 & N02 & N12)).
  step (make_unique_run _ _).
  step (make_unique_run _ _).
  step (NotificationService_new_run _ _ _).
  set (n := fresh (dom objs)) in *.
  set (l := fresh (dom (<[n:=notifier_object v]> objs))) in *.
  set (s := fresh (dom (<[l:=ConsoleLogger]> (<[n:=notifier_object v]> objs)))) in *.
  pose proof (service_at_built out objs v n l s N01 N02 N12) as S.
  step (sendNotification_run _ s v n l r c S).
  match goal with
  | |- NotificationService_delete _ ?w' = _ =>
      rewrite (NotificationService_delete_run w' s v n l S)
  end.
  cbn [cout objects]. now rewrite (release_built objs n l s) by assumption.
Qed.

(** X12. Making new objects leaves the services there are alone: after a
    [make_unique] or a construction of another service, at an address
    that held nothing, a service still owns the same Notifier and Logger,
    and nothing was written. *)
Theorem construction_keeps_services (w : world) (s : addr) (v : notifier_variant)
    (n l : addr) (o : object) (notifier logger : unique_ptr) :
  service_at w s v n l ->
  (exists a w',
     make_unique o w = Some (Some a, w') /\
     objects w !! a = None /\ objects w' !! a = Some o /\
     cout w' = cout w /\ service_at w' s v n l) /\
  (exists s' w',
     NotificationService_new notifier logger w = Some (s', w') /\
     objects w !! s' = None /\
     objects w' !! s' = Some (NotificationService notifier logger) /\
     cout w' = cout w /\ service_at w' s v n l).
Proof.
  intros (Hs & Hn & Hl).
  assert (Hkeep : forall o', service_at
            (World (cout w) (<[fresh (dom (objects w)) := o']> (objects w))) s v n l).
  { intros o'. unfold service_at. cbn [objects].
    rewrite !lookup_insert_ne; [auto | | |];
      apply not_eq_sym; eapply fresh_ne; eassumption. }
  split; eexists _, _.
  - split; [apply make_unique_run |]. cbn [cout objects].
    split; [apply fresh_free |]. split; [apply lookup_insert_eq |].
    split; [reflexivity | apply Hkeep].
  - split; [apply NotificationService_new_run |]. cbn [cout objects].
    split; [apply fresh_free |]. split; [apply lookup_insert_eq |].
    split; [reflexivity | apply Hkeep].
Qed.

Lemma construction_keeps_services_witness :
  service_at office 2 Email 0 1 /\
  exists s' w',
    NotificationService_new nullptr (Some 4) office = Some (s', w') /\
    objects office !! s' = None /\
    objects w' !! s' = Some (NotificationService nullptr (Some 4)) /\
    cout w' = cout office /\ service_at w' 2 Email 0 1.
Proof.
  assert (H : service_at office 2 Email 0 1) by (repeat split; reflexivity).
  split; [exact H |].
  apply (construction_keeps_services office 2 Email 0 1 SMSNotifier nullptr (Some 4) H).
Defined.
